(** * Basic: HTTP Basic Authentication middleware (github.com/lauslim12/basic)

    A shallow embedding of [basic.go] and of the small part of the Go
    standard library it calls ([crypto/sha256], [crypto/subtle],
    [net/http], [net/http/httptest]), followed by the properties of the
    credential verifier and of the authentication gate. *)

From Stdlib Require Import ZArith List Ascii String Bool Lia DecimalString.
From stdpp Require Import base option gmap strings list.
Import ListNotations.

(** ** Bytes and strings

    A Go [string] is a sequence of bytes; [[]byte(s)] is that sequence.  A
    byte is a [Z] in [0, 256). *)

Definition is_byte (b : Z) : Prop := (0 <= b < 256)%Z.

Definition bytes_of_string (s : string) : list Z :=
  map (fun c => Z.of_N (N_of_ascii c)) (list_ascii_of_string s).

(** The double quote and the line feed, as one-character strings. *)
Definition dquote : string := String (ascii_of_nat 34) EmptyString.
Definition newline : string := String (ascii_of_nat 10) EmptyString.

(** ** crypto/sha256

    [Sum256] of the Go standard library, after its portable block function
    (FIPS 180-4).  Words are [uint32], written as [Z] with the wrap-around
    spelled out. *)
Module Sha256.
Local Open Scope Z_scope.

Definition uint32 (x : Z) : Z := x mod 2 ^ 32.

(** [bits.RotateLeft32(x, -n)]: rotation to the right by [n] bits. *)
Definition rotr (x n : Z) : Z :=
  Z.lor (Z.shiftr x n) (uint32 (Z.shiftl x (32 - n))).

(** [^x] on a [uint32]. *)
Definition not32 (x : Z) : Z := Z.lxor x (2 ^ 32 - 1).

Definition add32 (x y : Z) : Z := uint32 (x + y).

Definition Krows : list (list Z) :=
  [ [0x428a2f98; 0x71374491; 0xb5c0fbcf; 0xe9b5dba5]
  ; [0x3956c25b; 0x59f111f1; 0x923f82a4; 0xab1c5ed5]
  ; [0xd807aa98; 0x12835b01; 0x243185be; 0x550c7dc3]
  ; [0x72be5d74; 0x80deb1fe; 0x9bdc06a7; 0xc19bf174]
  ; [0xe49b69c1; 0xefbe4786; 0x0fc19dc6; 0x240ca1cc]
  ; [0x2de92c6f; 0x4a7484aa; 0x5cb0a9dc; 0x76f988da]
  ; [0x983e5152; 0xa831c66d; 0xb00327c8; 0xbf597fc7]
  ; [0xc6e00bf3; 0xd5a79147; 0x06ca6351; 0x14292967]
  ; [0x27b70a85; 0x2e1b2138; 0x4d2c6dfc; 0x53380d13]
  ; [0x650a7354; 0x766a0abb; 0x81c2c92e; 0x92722c85]
  ; [0xa2bfe8a1; 0xa81a664b; 0xc24b8b70; 0xc76c51a3]
  ; [0xd192e819; 0xd6990624; 0xf40e3585; 0x106aa070]
  ; [0x19a4c116; 0x1e376c08; 0x2748774c; 0x34b0bcb5]
  ; [0x391c0cb3; 0x4ed8aa4a; 0x5b9cca4f; 0x682e6ff3]
  ; [0x748f82ee; 0x78a5636f; 0x84c87814; 0x8cc70208]
  ; [0x90befffa; 0xa4506ceb; 0xbef9a3f7; 0xc67178f2] ].

(** The round constants [_K]. *)
Definition K : list Z := concat Krows.

(** The chaining value [dig.h]. *)
Record digest : Type := mkDigest
  { h0 : Z; h1 : Z; h2 : Z; h3 : Z; h4 : Z; h5 : Z; h6 : Z; h7 : Z }.

(** [d.Reset()]. *)
Definition Reset : digest :=
  mkDigest 0x6a09e667 0xbb67ae85 0x3c6ef372 0xa54ff53a
           0x510e527f 0x9b05688c 0x1f83d9ab 0x5be0cd19.

(** Big-endian reading of the sixteen words of one 64-byte chunk:
    [w[i] = p[j]<<24 | p[j+1]<<16 | p[j+2]<<8 | p[j+3]]. *)
Fixpoint load_words (n : nat) (p : list Z) : list Z :=
  match n with
  | O => []
  | S n' =>
      match p with
      | b0 :: b1 :: b2 :: b3 :: p' =>
          Z.lor (Z.lor (Z.lor (Z.shiftl b0 24) (Z.shiftl b1 16)) (Z.shiftl b2 8)) b3
            :: load_words n' p'
      | _ => []
      end
  end.

(** One step of the message schedule, for the index [i = length w]:
    [w[i] = t1 + w[i-7] + t2 + w[i-16]]. *)
Definition schedule_step (w : list Z) : list Z :=
  let i := length w in
  let v1 := nth (i - 2) w 0 in
  let t1 := Z.lxor (Z.lxor (rotr v1 17) (rotr v1 19)) (Z.shiftr v1 10) in
  let v2 := nth (i - 15) w 0 in
  let t2 := Z.lxor (Z.lxor (rotr v2 7) (rotr v2 18)) (Z.shiftr v2 3) in
  w ++ [add32 (add32 (add32 t1 (nth (i - 7) w 0)) t2) (nth (i - 16) w 0)].

Definition schedule (p : list Z) : list Z :=
  Nat.iter 48 schedule_step (load_words 16 p).

(** One round on the working variables [a .. h]. *)
Definition round (s : digest) (kw : Z * Z) : digest :=
  let '(mkDigest a b c d e f g h) := s in
  let t1 :=
    add32 (add32 (add32 (add32 h
      (Z.lxor (Z.lxor (rotr e 6) (rotr e 11)) (rotr e 25)))
      (Z.lxor (Z.land e f) (Z.land (not32 e) g)))
      (fst kw)) (snd kw) in
  let t2 :=
    add32 (Z.lxor (Z.lxor (rotr a 2) (rotr a 13)) (rotr a 22))
          (Z.lxor (Z.lxor (Z.land a b) (Z.land a c)) (Z.land b c)) in
  mkDigest (add32 t1 t2) a b c (add32 d t1) e f g.

(** The body of [blockGeneric] for one chunk. *)
Definition block (dig : digest) (p : list Z) : digest :=
  let s := fold_left round (combine K (schedule p)) dig in
  mkDigest (add32 (h0 dig) (h0 s)) (add32 (h1 dig) (h1 s))
           (add32 (h2 dig) (h2 s)) (add32 (h3 dig) (h3 s))
           (add32 (h4 dig) (h4 s)) (add32 (h5 dig) (h5 s))
           (add32 (h6 dig) (h6 s)) (add32 (h7 dig) (h7 s)).

(** [for len(p) >= chunk { ...; p = p[chunk:] }]; the fuel bounds the number
    of chunks and [length p] is always enough. *)
Fixpoint blocks (fuel : nat) (dig : digest) (p : list Z) : digest :=
  match fuel with
  | O => dig
  | S fuel' =>
      if (length p <? 64)%nat then dig
      else blocks fuel' (block dig (firstn 64 p)) (skipn 64 p)
  end.

(** Big-endian bytes of an [n]-byte unsigned value. *)
Fixpoint be_bytes (n : nat) (x : Z) : list Z :=
  match n with
  | O => []
  | S n' => (Z.shiftr x (8 * Z.of_nat n')) mod 256 :: be_bytes n' x
  end.

(** The padding of [checkSum]: a [0x80] byte, zeros up to 56 modulo 64, and
    the length in bits as a big-endian [uint64]. *)
Definition pad (data : list Z) : list Z :=
  let len := Z.of_nat (length data) in
  data ++ [0x80] ++ repeat 0 (Z.to_nat ((55 - len) mod 64))
       ++ be_bytes 8 ((len * 8) mod 2 ^ 64).

Definition Sum256 (data : list Z) : list Z :=
  let p := pad data in
  let d := blocks (length p) Reset p in
  be_bytes 4 (h0 d) ++ be_bytes 4 (h1 d) ++ be_bytes 4 (h2 d) ++ be_bytes 4 (h3 d)
    ++ be_bytes 4 (h4 d) ++ be_bytes 4 (h5 d) ++ be_bytes 4 (h6 d) ++ be_bytes 4 (h7 d).

End Sha256.

(** ** crypto/subtle *)
Module Subtle.
Local Open Scope Z_scope.

(** [ConstantTimeByteEq(x, y) = int((uint32(x^y) - 1) >> 31)]. *)
Definition ConstantTimeByteEq (x y : Z) : Z :=
  Z.shiftr (Sha256.uint32 (Z.lxor x y - 1)) 31.

(** [for i := 0; i < len(x); i++ { v |= x[i] ^ y[i] }], on slices of equal
    length.  Every position is visited: there is no exit on a difference. *)
Fixpoint accumulate (v : Z) (x y : list Z) : Z :=
  match x, y with
  | a :: x', b :: y' => accumulate (Z.lor v (Z.lxor a b)) x' y'
  | _, _ => v
  end.

Definition ConstantTimeCompare (x y : list Z) : Z :=
  if negb (length x =? length y)%nat then 0
  else ConstantTimeByteEq (accumulate 0 x y) 0.

End Subtle.

(** ** net/http and net/http/httptest

    The response writer is the recorder of [net/http/httptest] (the one the
    tests of the package use); a request is anything [BasicAuth] can be read
    from. *)
Module Http.

Definition StatusOK : Z := 200.
Definition StatusUnauthorized : Z := 401.

(** [httptest.ResponseRecorder]: the status code, the header map, the body
    written so far and whether the status line has been written. *)
Record ResponseRecorder : Type := mkRecorder
  { Code : Z;
    HeaderMap : gmap string (list string);
    Body : string;
    wroteHeader : bool }.

(** [httptest.NewRecorder()]. *)
Definition NewRecorder : ResponseRecorder :=
  mkRecorder StatusOK ∅ EmptyString false.

(** [w.Header().Set(key, value)]: the key now holds the single value.  Go
    stores the key in its canonical capitalisation; here a header is named
    by one spelling throughout. *)
Definition Header_Set (key value : string) (w : ResponseRecorder) : ResponseRecorder :=
  mkRecorder (Code w) (<[key := [value]]> (HeaderMap w)) (Body w) (wroteHeader w).

(** [w.Header().Get(key)]: the first value of the key, or the empty string. *)
Definition Header_Get (key : string) (w : ResponseRecorder) : string :=
  match HeaderMap w !! key with
  | Some (v :: _) => v
  | _ => EmptyString
  end.

(** [w.WriteHeader(code)]: only the first call counts. *)
Definition WriteHeader (code : Z) (w : ResponseRecorder) : ResponseRecorder :=
  if wroteHeader w then w
  else mkRecorder code (HeaderMap w) (Body w) true.

(** [w.Write(data)]: writes the status 200 first when none was written. *)
Definition Write (data : string) (w : ResponseRecorder) : ResponseRecorder :=
  let w' := if wroteHeader w then w else WriteHeader StatusOK w in
  mkRecorder (Code w') (HeaderMap w') (Body w' +:+ data) (wroteHeader w').

(** [http.Error(w, error, code)]: a plain-text reply, the message followed
    by a line feed. *)
Definition Error (error : string) (code : Z) (w : ResponseRecorder) : ResponseRecorder :=
  let w1 := Header_Set "Content-Type" "text/plain; charset=utf-8" w in
  let w2 := Header_Set "X-Content-Type-Options" "nosniff" w1 in
  let w3 := WriteHeader code w2 in
  Write (error +:+ newline) w3.

(** What the middleware needs of [*http.Request]: [r.BasicAuth()], the
    username and password of the [Authorization] header and whether the
    header was present and well-formed. *)
Class Request (R : Type) : Type :=
  { Request_BasicAuth : R -> string * string * bool }.

(** A handler body; [None] is a run-time panic. *)
Definition HandlerFunc (R : Type) : Type :=
  ResponseRecorder -> R -> option ResponseRecorder.

(** An [http.Handler] (or [http.HandlerFunc]) value; [None] is [nil]. *)
Definition Handler (R : Type) : Type := option (HandlerFunc R).

(** [h.ServeHTTP(w, r)]; calling through [nil] panics. *)
Definition ServeHTTP {R : Type} (h : Handler R) (w : ResponseRecorder) (r : R)
  : option ResponseRecorder :=
  match h with
  | Some f => f w r
  | None => None
  end.

(** A request as the tests build it: [httptest.NewRequest] followed, or
    not, by [r.SetBasicAuth(username, password)]; [credentials] is what
    [r.BasicAuth()] then reads back (the pair that was set, for a username
    without a colon). *)
Record TestRequest : Type := mkRequest
  { Method : string;
    Target : string;
    credentials : option (string * string) }.

#[export] Instance TestRequest_Request : Request TestRequest :=
  {| Request_BasicAuth r :=
       match credentials r with
       | Some (username, password) => (username, password, true)
       | None => (EmptyString, EmptyString, false)
       end |}.

End Http.

(** ** package basic *)
Module Basic.
Import Http.

(** Go maps of strings; [None] is the [nil] map. *)
Abbreviation gomap := (option (gmap string string)).

(** [len(m)]. *)
Definition map_len (m : gomap) : nat :=
  match m with
  | Some m' => size m'
  | None => O
  end.

(** [val, ok := m[key]]. *)
Definition map_lookup (m : gomap) (key : string) : option string :=
  match m with
  | Some m' => m' !! key
  | None => None
  end.

(** [m[key]]: the zero value when the key is absent. *)
Definition map_index (m : gomap) (key : string) : string :=
  match map_lookup m key with
  | Some val => val
  | None => EmptyString
  end.

(** [CompareInputs] is to safe compare two inputs. *)
Definition CompareInputs (input expected : string) : bool :=
  let inputHash := Sha256.Sum256 (bytes_of_string input) in
  let expectedHash := Sha256.Sum256 (bytes_of_string expected) in
  (Subtle.ConstantTimeCompare inputHash expectedHash =? 1)%Z.

Section WithRequest.
Context {R : Type} `{!Request R}.

(** [BasicAuth] is used to configure all the library options.  The function
    and handler fields can be [nil]. *)
Record BasicAuth : Type := mkBasicAuth
  { Authenticator : option (string -> string -> bool);
    Charset : string;
    InvalidCredentialsResponse : Handler R;
    InvalidSchemeResponse : Handler R;
    Realm : string;
    Users : gomap }.

(** The [Authenticator] closure of [NewDefaultBasicAuth]. *)
Definition defaultAuthenticator (users : gomap) (username password : string) : bool :=
  if negb (map_len users =? 0)%nat then
    match map_lookup users username with
    | Some val =>
        let usernamesMatch := CompareInputs username (map_index users username) in
        let passwordsMatch := CompareInputs password val in
        usernamesMatch && passwordsMatch
    | None => false
    end
  else false.

Definition defaultInvalidCredentialsResponse : HandlerFunc R :=
  fun w r => Some (Error "Invalid username and/or password!" StatusUnauthorized w).

Definition defaultInvalidSchemeResponse : HandlerFunc R :=
  fun w r => Some (Error "Invalid authentication scheme!" StatusUnauthorized w).

(** [NewDefaultBasicAuth] is used to set up Basic Auth options with default
    configurations. *)
Definition NewDefaultBasicAuth (users : gomap) : BasicAuth :=
  {| Authenticator := Some (defaultAuthenticator users);
     Charset := "UTF-8";
     InvalidCredentialsResponse := Some defaultInvalidCredentialsResponse;
     InvalidSchemeResponse := Some defaultInvalidSchemeResponse;
     Realm := EmptyString;
     Users := users |}.

(** [NewCustomBasicAuth] is used to set up Basic Auth options with
    customizable configurations. *)
Definition NewCustomBasicAuth
    (authenticator : option (string -> string -> bool))
    (charset : string)
    (invalidCredentialsResponse : Handler R)
    (invalidSchemeResponse : Handler R)
    (realm : string)
    (users : gomap) : BasicAuth :=
  let defaultConfig := NewDefaultBasicAuth users in
  let authenticator :=
    match authenticator with
    | None => Authenticator defaultConfig
    | Some _ => authenticator
    end in
  let invalidCredentialsResponse :=
    match invalidCredentialsResponse with
    | None => InvalidCredentialsResponse defaultConfig
    | Some _ => invalidCredentialsResponse
    end in
  let invalidSchemeResponse :=
    match invalidSchemeResponse with
    | None => InvalidSchemeResponse defaultConfig
    | Some _ => invalidSchemeResponse
    end in
  let users := if (map_len users =? 0)%nat then Users defaultConfig else users in
  {| Authenticator := authenticator;
     Charset := charset;
     InvalidCredentialsResponse := invalidCredentialsResponse;
     InvalidSchemeResponse := invalidSchemeResponse;
     Realm := realm;
     Users := users |}.

(** [fmt.Sprintf(`Basic realm="%s", charset="%s"`, realm, charset)]. *)
Definition challenge (realm charset : string) : string :=
  "Basic realm=" +:+ dquote +:+ realm +:+ dquote
    +:+ ", charset=" +:+ dquote +:+ charset +:+ dquote.

(** [SetWWWAuthenticate] sets the [WWW-Authenticate] header on the response. *)
Definition SetWWWAuthenticate (a : BasicAuth) (w : ResponseRecorder) : ResponseRecorder :=
  if negb (String.eqb (Realm a) EmptyString) && negb (String.eqb (Charset a) EmptyString)
  then Header_Set "WWW-Authenticate" (challenge (Realm a) (Charset a)) w
  else w.

Definition SendInvalidCredentialsResponse (a : BasicAuth) (w : ResponseRecorder) (r : R)
  : option ResponseRecorder :=
  ServeHTTP (InvalidCredentialsResponse a) (SetWWWAuthenticate a w) r.

Definition SendInvalidSchemeResponse (a : BasicAuth) (w : ResponseRecorder) (r : R)
  : option ResponseRecorder :=
  ServeHTTP (InvalidSchemeResponse a) (SetWWWAuthenticate a w) r.

(** The closure [Authenticate] returns. *)
Definition gate (a : BasicAuth) (next : Handler R) : HandlerFunc R :=
  fun w r =>
    let '(username, password, ok) := Request_BasicAuth r in
    if negb ok then SendInvalidSchemeResponse a w r
    else
      match Authenticator a with
      | None => None
      | Some authenticator =>
          let authenticated := authenticator username password in
          if negb authenticated then SendInvalidCredentialsResponse a w r
          else ServeHTTP next w r
      end.

(** [Authenticate] is a middleware to safeguard a route with Basic
    Authentication. *)
Definition Authenticate (a : BasicAuth) (next : Handler R) : Handler R :=
  Some (gate a next).

End WithRequest.

Arguments BasicAuth R : clear implicits.

End Basic.

(** ** The tests of the package

    The users table, the protected handler and the driver loop of
    [TestAuthenticate]. *)
Module Tests.
Import Http Basic.

(** [map[string]string{"gerysantoso": "gerysantoso", "a_username": "a_password"}]. *)
Definition users : gomap :=
  Some (<["gerysantoso" := "gerysantoso"]> (<["a_username" := "a_password"]> ∅)).

(** [func(w, r) { w.WriteHeader(http.StatusOK) }]. *)
Definition next : Handler TestRequest :=
  Some (fun w r => Some (WriteHeader StatusOK w)).

(** [httptest.NewRequest(http.MethodGet, "/", nil)]. *)
Definition NewRequest : TestRequest := mkRequest "GET" "/" None.

(** [r.SetBasicAuth(username, password)]. *)
Definition SetBasicAuth (username password : string) (r : TestRequest) : TestRequest :=
  mkRequest (Method r) (Target r) (Some (username, password)).

(** The configuration of [test_www_authenticate]. *)
Definition private : BasicAuth TestRequest :=
  NewCustomBasicAuth None "UTF-8" None None "Test" users.

(** The body of one test case; the test then compares [w.Code] with the
    expected status. *)
Definition run (auth : BasicAuth TestRequest) (username password : string)
  : option ResponseRecorder :=
  let handler := Authenticate auth next in
  let r := NewRequest in
  let r :=
    if negb (String.eqb username EmptyString) && negb (String.eqb password EmptyString)
    then SetBasicAuth username password r
    else r in
  ServeHTTP handler NewRecorder r.

End Tests.

(** ** example/main.go

    The example program, up to the registration of its routes.  The JSON
    encoder and the table of status texts belong to the standard library
    and are parameters. *)
Module Example.
Import Http Basic.

Section WithEncoder.
Context {R : Type} `{!Request R}.

(** The elements of a [[]interface{}]. *)
Context {Value : Type}.

(** [Response] to send back JSON response to the client. *)
Record Response : Type := mkResponse
  { Status : string;
    StatusCode : Z;
    StatusText : string;
    Message : string;
    Data : list Value;
    Error : string;
    ErrorCode : string }.

(** [http.StatusText(code)]. *)
Variable http_StatusText : Z -> string.

(** [json.NewEncoder(w).Encode(v)]: the text the encoder writes to [w] (the
    JSON value and a line feed), or [None] when the value cannot be
    encoded, in which case nothing is written. *)
Variable Encode : Response -> option string.

(** [NewSuccessJSON] creates a new, successful JSON response. *)
Definition NewSuccessJSON (statusCode : Z) (message : string) (data : list Value)
  : Response :=
  {| Status := "success";
     StatusCode := statusCode;
     StatusText := http_StatusText statusCode;
     Message := message;
     Data := data;
     Error := EmptyString;
     ErrorCode := EmptyString |}.

(** [NewFailureJSON] creates a new, failed JSON response. *)
Definition NewFailureJSON (statusCode : Z) (message err errorCode : string)
  : Response :=
  {| Status := "fail";
     StatusCode := statusCode;
     StatusText := http_StatusText statusCode;
     Message := message;
     Data := [];
     Error := err;
     ErrorCode := errorCode |}.

(** [json.NewEncoder(w).Encode(v)], the error it returns dropped. *)
Definition encode_to (w : ResponseRecorder) (v : Response) : ResponseRecorder :=
  match Encode v with
  | Some text => Write text w
  | None => w
  end.

(** [SendSuccess] sends back a successful response to the client. *)
Definition SendSuccess (w : ResponseRecorder) (code : Z) (message : string)
    (data : list Value) : ResponseRecorder :=
  let w := Header_Set "Content-Type" "application/json" w in
  let w := WriteHeader code w in
  encode_to w (NewSuccessJSON code message data).

(** [SendFailure] sends back a failure response to the client. *)
Definition SendFailure (w : ResponseRecorder) (code : Z) (err errorCode : string)
  : ResponseRecorder :=
  let w := Header_Set "Content-Type" "application/json" w in
  let w := WriteHeader code w in
  encode_to w (NewFailureJSON code "Error!" err errorCode).

(** Special simple auth route for authenticated users. *)
Definition simpleAuth : HandlerFunc R :=
  fun w r =>
    let w := Header_Set "Content-Type" "text/plain" w in
    let w := WriteHeader StatusOK w in
    Some (Write "Welcome to the private endpoint!" w).

(** Special complex auth route for authenticated users. *)
Definition complexAuth : HandlerFunc R :=
  fun w r => Some (SendSuccess w StatusOK "Successfully authenticated!" []).

(** Sample users. *)
Definition users : gomap := Some {["gerysantoso" := "gerysantoso"]}.

(** Simple configuration for Basic Authentication. *)
Definition basicAuthSimple : BasicAuth R :=
  NewCustomBasicAuth None "UTF-8" None None "Private" users.

(** Complex configuration for Basic Authentication. *)
Definition basicAuthComplex : BasicAuth R :=
  NewCustomBasicAuth None "UTF-8"
    (Some (fun w r =>
             Some (SendFailure w StatusUnauthorized
                     "Invalid authentication scheme!" "BAUTH: E0001")))
    (Some (fun w r =>
             Some (SendFailure w StatusUnauthorized
                     "Invalid username and/or password!" "BAUTH: E0002")))
    "Secret" users.

(** The handlers registered for [/simple] and [/complex]. *)
Definition route_simple : Handler R :=
  Authenticate basicAuthSimple (Some simpleAuth).

Definition route_complex : Handler R :=
  Authenticate basicAuthComplex (Some complexAuth).

End WithEncoder.

Arguments Response Value : clear implicits.

(** An encoder and a status table to run the example with: the JSON text of
    a [Response] without data whose strings hold nothing JSON escapes, and
    the two status texts the example asks for. *)
Definition quoted (s : string) : string := dquote +:+ s +:+ dquote.

Definition member (name value : string) : string :=
  quoted name +:+ ":" +:+ value.

Definition optional_member (name value : string) : string :=
  if String.eqb value EmptyString then EmptyString
  else "," +:+ member name (quoted value).

Definition encode_plain (v : Response unit) : option string :=
  match Data v with
  | [] =>
      Some ("{" +:+ member "status" (quoted (Status v))
              +:+ "," +:+ member "statusCode"
                            (DecimalString.NilZero.string_of_int (Z.to_int (StatusCode v)))
              +:+ "," +:+ member "statusText" (quoted (StatusText v))
              +:+ "," +:+ member "message" (quoted (Message v))
              +:+ optional_member "error" (Error v)
              +:+ optional_member "errorCode" (ErrorCode v)
              +:+ "}" +:+ newline)
  | _ :: _ => None
  end.

Definition status_text (code : Z) : string :=
  if (code =? 200)%Z then "OK"
  else if (code =? 401)%Z then "Unauthorized"
  else EmptyString.

End Example.

(** ** Vocabulary of the statements *)

(** A handler body leaves the values of the header [key] as it found them. *)
Definition keeps_header {R : Type} (key : string) (f : Http.HandlerFunc R) : Prop :=
  forall (w w' : Http.ResponseRecorder) (r : R),
    f w r = Some w' -> Http.HeaderMap w' !! key = Http.HeaderMap w !! key.

(** * Properties *)

(** ** The digest *)

(** Test vectors of FIPS 180-4: the empty message, one block, two blocks. *)
Example Sum256_empty :
  Sha256.Sum256 [] =
  [0xe3; 0xb0; 0xc4; 0x42; 0x98; 0xfc; 0x1c; 0x14; 0x9a; 0xfb; 0xf4; 0xc8;
   0x99; 0x6f; 0xb9; 0x24; 0x27; 0xae; 0x41; 0xe4; 0x64; 0x9b; 0x93; 0x4c;
   0xa4; 0x95; 0x99; 0x1b; 0x78; 0x52; 0xb8; 0x55]%Z.
Proof. vm_compute. reflexivity. Qed.

Example Sum256_abc :
  Sha256.Sum256 (bytes_of_string "abc") =
  [0xba; 0x78; 0x16; 0xbf; 0x8f; 0x01; 0xcf; 0xea; 0x41; 0x41; 0x40; 0xde;
   0x5d; 0xae; 0x22; 0x23; 0xb0; 0x03; 0x61; 0xa3; 0x96; 0x17; 0x7a; 0x9c;
   0xb4; 0x10; 0xff; 0x61; 0xf2; 0x00; 0x15; 0xad]%Z.
Proof. vm_compute. reflexivity. Qed.

Example Sum256_two_blocks :
  Sha256.Sum256
    (bytes_of_string "abcdbcdecdefdefgefghfghighijhijkijkljklmklmnlmnomnopnopq") =
  [0x24; 0x8d; 0x6a; 0x61; 0xd2; 0x06; 0x38; 0xb8; 0xe5; 0xc0; 0x26; 0x93;
   0x0c; 0x3e; 0x60; 0x39; 0xa3; 0x3c; 0xe4; 0x59; 0x64; 0xff; 0x21; 0x67;
   0xf6; 0xec; 0xed; 0xd4; 0x19; 0xdb; 0x06; 0xc1]%Z.
Proof. vm_compute. reflexivity. Qed.

Section Digest.
Local Open Scope Z_scope.

Lemma be_bytes_length (n : nat) (x : Z) : length (Sha256.be_bytes n x) = n.
Proof. induction n as [|n IH]; simpl; [reflexivity | now rewrite IH]. Qed.

Lemma be_bytes_bytes (n : nat) (x : Z) : Forall is_byte (Sha256.be_bytes n x).
Proof.
  induction n as [|n IH]; simpl; constructor; [|exact IH].
  unfold is_byte. apply Z.mod_pos_bound. lia.
Qed.

(** A digest is always 32 bytes long, whatever the length of the input. *)
Lemma Sum256_length (data : list Z) : length (Sha256.Sum256 data) = 32%nat.
Proof.
  unfold Sha256.Sum256. cbv zeta.
  rewrite !length_app, !be_bytes_length. reflexivity.
Qed.

Lemma Sum256_bytes (data : list Z) : Forall is_byte (Sha256.Sum256 data).
Proof.
  unfold Sha256.Sum256. cbv zeta.
  repeat (apply Forall_app; split); apply be_bytes_bytes.
Qed.

End Digest.

(** ** The comparison *)
Section Compare.
Local Open Scope Z_scope.

Lemma byte_bound_log2 (a : Z) : 0 <= a -> (a < 256 <-> a = 0 \/ Z.log2 a < 8).
Proof.
  intros Ha. destruct (Z.eq_dec a 0) as [->|Hne].
  - split; [now left | lia].
  - change 256 with (2 ^ 8). rewrite Z.log2_lt_pow2 by lia. intuition lia.
Qed.

Lemma byte_lxor (a b : Z) : is_byte a -> is_byte b -> is_byte (Z.lxor a b).
Proof.
  unfold is_byte. intros [Ha Ha'] [Hb Hb'].
  assert (Hn : 0 <= Z.lxor a b) by (apply Z.lxor_nonneg; lia).
  split; [exact Hn|].
  apply byte_bound_log2; [exact Hn|].
  destruct (Z.eq_dec (Z.lxor a b) 0) as [E|E]; [now left | right].
  pose proof (Z.log2_lxor a b Ha Hb) as Hl.
  apply (proj1 (byte_bound_log2 a Ha)) in Ha'.
  apply (proj1 (byte_bound_log2 b Hb)) in Hb'.
  destruct Ha' as [->|Ha'], Hb' as [->|Hb']; simpl Z.log2 in *; lia.
Qed.

Lemma byte_lor (a b : Z) : is_byte a -> is_byte b -> is_byte (Z.lor a b).
Proof.
  unfold is_byte. intros [Ha Ha'] [Hb Hb'].
  assert (Hn : 0 <= Z.lor a b) by (apply Z.lor_nonneg; lia).
  split; [exact Hn|].
  apply byte_bound_log2; [exact Hn|].
  destruct (Z.eq_dec (Z.lor a b) 0) as [E|E]; [now left | right].
  rewrite (Z.log2_lor a b Ha Hb).
  apply (proj1 (byte_bound_log2 a Ha)) in Ha'.
  apply (proj1 (byte_bound_log2 b Hb)) in Hb'.
  destruct Ha' as [->|Ha'], Hb' as [->|Hb']; simpl Z.log2 in *; lia.
Qed.

(** The accumulator stays a byte. *)
Lemma accumulate_byte (x : list Z) :
  forall (y : list Z) (v : Z),
    is_byte v -> Forall is_byte x -> Forall is_byte y ->
    is_byte (Subtle.accumulate v x y).
Proof.
  induction x as [|a x IH]; intros y v Hv Hx Hy; simpl; [exact Hv|].
  destruct y as [|b y]; [exact Hv|].
  inversion Hx; inversion Hy; subst.
  apply IH; [|assumption|assumption].
  apply byte_lor; [exact Hv|]. now apply byte_lxor.
Qed.

(** It ends at zero exactly when it started at zero and no position differs. *)
Lemma accumulate_zero (x : list Z) :
  forall (y : list Z) (v : Z),
    length x = length y ->
    (Subtle.accumulate v x y = 0 <-> v = 0 /\ x = y).
Proof.
  induction x as [|a x IH]; intros [|b y] v Hlen; simpl in *; try discriminate.
  - intuition.
  - injection Hlen as Hlen. rewrite (IH y _ Hlen), Z.lor_eq_0_iff. split.
    + intros [[Hv Hab] ->]. apply Z.lxor_eq in Hab. now subst.
    + intros [Hv E]. injection E as -> ->. now rewrite Z.lxor_nilpotent.
Qed.

Lemma ConstantTimeByteEq_zero (v : Z) :
  is_byte v -> (Subtle.ConstantTimeByteEq v 0 = 1 <-> v = 0).
Proof.
  unfold is_byte, Subtle.ConstantTimeByteEq, Sha256.uint32. intros Hv.
  rewrite Z.lxor_0_r, Z.shiftr_div_pow2 by lia. split.
  - intros H. destruct (Z.eq_dec v 0) as [|Hne]; [assumption|exfalso].
    rewrite Z.mod_small in H by lia.
    rewrite Z.div_small in H by lia. discriminate.
  - intros ->. reflexivity.
Qed.

(** On byte slices [ConstantTimeCompare] returns 1 exactly on equal slices. *)
Lemma ConstantTimeCompare_eq (x y : list Z) :
  Forall is_byte x -> Forall is_byte y ->
  (Subtle.ConstantTimeCompare x y = 1 <-> x = y).
Proof.
  intros Hx Hy. unfold Subtle.ConstantTimeCompare.
  destruct (Nat.eqb_spec (length x) (length y)) as [Hlen|Hlen]; simpl.
  - rewrite ConstantTimeByteEq_zero.
    + rewrite (accumulate_zero x y 0 Hlen). intuition.
    + apply accumulate_byte; [unfold is_byte; lia | assumption | assumption].
  - split; [discriminate | intros ->; contradiction].
Qed.

(** [CompareInputs] decides equality of the SHA-256 digests of its inputs. *)
Lemma CompareInputs_digests (input expected : string) :
  Basic.CompareInputs input expected = true <->
  Sha256.Sum256 (bytes_of_string input) = Sha256.Sum256 (bytes_of_string expected).
Proof.
  unfold Basic.CompareInputs. cbv zeta. rewrite Z.eqb_eq.
  apply ConstantTimeCompare_eq; apply Sum256_bytes.
Qed.

Lemma CompareInputs_refl (input : string) : Basic.CompareInputs input input = true.
Proof. now apply CompareInputs_digests. Qed.

End Compare.

(** ** The default authenticator *)
Section DefaultAuthenticator.
Import Http Basic.

Lemma map_lookup_len (users : gomap) (key val : string) :
  map_lookup users key = Some val -> (map_len users =? 0)%nat = false.
Proof.
  destruct users as [m|]; simpl; [|discriminate].
  intros Hk. apply Nat.eqb_neq. intros Hsize.
  apply map_size_empty_iff in Hsize. subst m.
  rewrite lookup_empty in Hk. discriminate.
Qed.

(** After a successful lookup the closure returns the conjunction of two
    comparisons, both against the value stored under the key. *)
Lemma defaultAuthenticator_found (users : gomap) (username password val : string) :
  map_lookup users username = Some val ->
  defaultAuthenticator users username password =
  CompareInputs username val && CompareInputs password val.
Proof.
  intros Hk. unfold defaultAuthenticator, map_index.
  rewrite (map_lookup_len _ _ _ Hk), Hk. reflexivity.
Qed.

Lemma defaultAuthenticator_absent (users : gomap) (username password : string) :
  map_lookup users username = None ->
  defaultAuthenticator users username password = false.
Proof.
  intros Hk. unfold defaultAuthenticator. rewrite Hk.
  now destruct (negb _).
Qed.

(** A user stored with the username as password is accepted. *)
Lemma defaultAuthenticator_same (users : gomap) (username : string) :
  map_lookup users username = Some username ->
  defaultAuthenticator users username username = true.
Proof.
  intros Hk. rewrite (defaultAuthenticator_found _ _ _ _ Hk).
  now rewrite CompareInputs_refl.
Qed.

Lemma defaultAuthenticator_no_users (users : gomap) (username password : string) :
  map_len users = O ->
  defaultAuthenticator users username password = false.
Proof. intros Hn. unfold defaultAuthenticator. now rewrite Hn. Qed.

End DefaultAuthenticator.

Section Verifier.
Import Http Basic.

(** C5.  For a username present in the users map with stored value [val],
    the default authenticator returns true exactly when the supplied
    username and the supplied password both have the SHA-256 digest of
    [val]; so it returns false for every password when the digest of the
    username differs from that of the stored value.  It returns false when
    the map is nil, when it is empty and when the username is absent. *)
Theorem defaultAuthenticator_digests (users : gomap) (username password : string) :
  (forall val : string,
      map_lookup users username = Some val ->
      (defaultAuthenticator users username password = true <->
       Sha256.Sum256 (bytes_of_string username) = Sha256.Sum256 (bytes_of_string val) /\
       Sha256.Sum256 (bytes_of_string password) = Sha256.Sum256 (bytes_of_string val)) /\
      (Sha256.Sum256 (bytes_of_string username) <> Sha256.Sum256 (bytes_of_string val) ->
       forall password' : string, defaultAuthenticator users username password' = false)) /\
  (users = None -> defaultAuthenticator users username password = false) /\
  (map_len users = O -> defaultAuthenticator users username password = false) /\
  (map_lookup users username = None ->
   defaultAuthenticator users username password = false).
Proof.
  split; [|split; [|split]].
  - intros val Hk. split.
    + rewrite (defaultAuthenticator_found _ _ _ _ Hk), andb_true_iff.
      now rewrite !CompareInputs_digests.
    + intros Hne password'.
      rewrite (defaultAuthenticator_found _ _ _ _ Hk).
      apply andb_false_iff. left. apply not_true_iff_false.
      now rewrite CompareInputs_digests.
  - intros ->. reflexivity.
  - apply defaultAuthenticator_no_users.
  - apply defaultAuthenticator_absent.
Qed.

(** The theorem at the table of the tests: the user whose password is the
    username is accepted, and the user [a_username], whose password differs
    from the username, is rejected with every password. *)
Lemma defaultAuthenticator_digests_witness :
  defaultAuthenticator Tests.users "gerysantoso" "gerysantoso" = true /\
  (forall password' : string,
      defaultAuthenticator Tests.users "a_username" password' = false).
Proof.
  split.
  - apply (proj1 (defaultAuthenticator_digests Tests.users "gerysantoso" "gerysantoso"))
      with (val := "gerysantoso"); [reflexivity | split; reflexivity].
  - apply (proj1 (defaultAuthenticator_digests Tests.users "a_username" "a_password"))
      with (val := "a_password"); [reflexivity | vm_compute; discriminate].
Defined.

(** C1.  The pair [("a_username", "a_password")] is registered in the users
    table of the tests, and the default authenticator rejects it: the test
    case [test_different_username_and_password], which expects the status
    200, gets 401 from the gate. *)
Theorem registered_pair_rejected :
  map_lookup Tests.users "a_username" = Some "a_password" /\
  defaultAuthenticator Tests.users "a_username" "a_password" = false /\
  Code <$> Tests.run (NewDefaultBasicAuth Tests.users) "a_username" "a_password"
    = Some StatusUnauthorized.
Proof. repeat split; vm_compute; reflexivity. Qed.

(** C2.  After the successful lookup of [a_username] the username
    comparison is made against the value stored under the key, which is the
    password, and fails; the password comparison succeeds and the
    authenticator still returns false, so its result is not that of the
    password comparison. *)
Theorem username_compared_with_password :
  map_lookup Tests.users "a_username" = Some "a_password" /\
  map_index Tests.users "a_username" = "a_password" /\
  CompareInputs "a_username" (map_index Tests.users "a_username") = false /\
  CompareInputs "a_password" "a_password" = true /\
  defaultAuthenticator Tests.users "a_username" "a_password" = false.
Proof. repeat split; vm_compute; reflexivity. Qed.

End Verifier.

(** ** The gate *)
Section Gate.
Import Http Basic.
Context {R : Type} `{!Request R}.

Lemma SetWWWAuthenticate_set (a : BasicAuth R) (w : ResponseRecorder) :
  Realm a <> EmptyString -> Charset a <> EmptyString ->
  SetWWWAuthenticate a w =
  Header_Set "WWW-Authenticate" (challenge (Realm a) (Charset a)) w.
Proof.
  intros Hr Hc. unfold SetWWWAuthenticate.
  apply String.eqb_neq in Hr, Hc. now rewrite Hr, Hc.
Qed.

Lemma SetWWWAuthenticate_skip (a : BasicAuth R) (w : ResponseRecorder) :
  Realm a = EmptyString \/ Charset a = EmptyString ->
  SetWWWAuthenticate a w = w.
Proof.
  unfold SetWWWAuthenticate. intros [E|E]; rewrite E; simpl; [reflexivity|].
  now rewrite andb_false_r.
Qed.

(** C3.  A request takes exactly one of three paths through the gate.  When
    [r.BasicAuth()] reports no well-formed credentials the response is that
    of the invalid-scheme handler, whatever [next] is; when the
    authenticator returns false the response is that of the
    invalid-credentials handler, whatever [next] is and whatever made the
    authenticator refuse; when it returns true the response is that of
    [next]. *)
Theorem Authenticate_paths (a : BasicAuth R) (authenticator : string -> string -> bool)
    (next : Handler R) (w : ResponseRecorder) (r : R)
    (username password : string) (ok : bool) :
  Authenticator a = Some authenticator ->
  Request_BasicAuth r = (username, password, ok) ->
  (ok = false ->
     ServeHTTP (Authenticate a next) w r =
       ServeHTTP (InvalidSchemeResponse a) (SetWWWAuthenticate a w) r /\
     forall next' : Handler R,
       ServeHTTP (Authenticate a next') w r = ServeHTTP (Authenticate a next) w r) /\
  (ok = true -> authenticator username password = false ->
     ServeHTTP (Authenticate a next) w r =
       ServeHTTP (InvalidCredentialsResponse a) (SetWWWAuthenticate a w) r /\
     forall next' : Handler R,
       ServeHTTP (Authenticate a next') w r = ServeHTTP (Authenticate a next) w r) /\
  (ok = true -> authenticator username password = true ->
     ServeHTTP (Authenticate a next) w r = ServeHTTP next w r).
Proof.
  intros Ha Hr.
  assert (Hgate : forall n : Handler R,
             ServeHTTP (Authenticate a n) w r =
             if negb ok then SendInvalidSchemeResponse a w r
             else if negb (authenticator username password)
                  then SendInvalidCredentialsResponse a w r
                  else ServeHTTP n w r).
  { intros n. unfold Authenticate, ServeHTTP at 1, gate. now rewrite Hr, Ha. }
  split; [|split].
  - intros ->. split; [now rewrite Hgate|].
    intros next'. now rewrite !Hgate.
  - intros -> Hf. split; [now rewrite Hgate, Hf|].
    intros next'. now rewrite !Hgate, Hf.
  - intros -> Hf. now rewrite Hgate, Hf.
Qed.

(** C9.  On the authorized path the response of the gate is the response of
    the wrapped handler run on the response writer and the request the gate
    received: the gate sets no header and writes no status. *)
Theorem Authenticate_authorized (a : BasicAuth R) (authenticator : string -> string -> bool)
    (next : Handler R) (w : ResponseRecorder) (r : R) (username password : string) :
  Authenticator a = Some authenticator ->
  Request_BasicAuth r = (username, password, true) ->
  authenticator username password = true ->
  ServeHTTP (Authenticate a next) w r = ServeHTTP next w r.
Proof.
  intros Ha Hr Hf. unfold Authenticate, ServeHTTP at 1, gate.
  now rewrite Hr, Ha, Hf.
Qed.

(** C4.  Both rejection paths hand to their handler the response writer
    after [SetWWWAuthenticate].  With a non-empty realm and a non-empty
    charset that call sets [WWW-Authenticate] to
    [Basic realm="<realm>", charset="<charset>"]; with either one empty it
    leaves the writer as it was.  So on a writer that had no such header,
    and with a handler that does not touch it, the rejected response
    carries the challenge exactly when both fields are non-empty. *)
Theorem challenge_on_rejection (a : BasicAuth R) (w : ResponseRecorder) (r : R) :
  SendInvalidSchemeResponse a w r =
    ServeHTTP (InvalidSchemeResponse a) (SetWWWAuthenticate a w) r /\
  SendInvalidCredentialsResponse a w r =
    ServeHTTP (InvalidCredentialsResponse a) (SetWWWAuthenticate a w) r /\
  (Realm a <> EmptyString /\ Charset a <> EmptyString ->
     SetWWWAuthenticate a w =
       Header_Set "WWW-Authenticate"
         ("Basic realm=" +:+ dquote +:+ Realm a +:+ dquote
            +:+ ", charset=" +:+ dquote +:+ Charset a +:+ dquote) w) /\
  (Realm a = EmptyString \/ Charset a = EmptyString -> SetWWWAuthenticate a w = w) /\
  (HeaderMap w !! "WWW-Authenticate" = None ->
     forall (f : HandlerFunc R) (w' : ResponseRecorder),
       keeps_header "WWW-Authenticate" f ->
       (InvalidSchemeResponse a = Some f /\ SendInvalidSchemeResponse a w r = Some w') \/
       (InvalidCredentialsResponse a = Some f /\
        SendInvalidCredentialsResponse a w r = Some w') ->
       (Realm a <> EmptyString /\ Charset a <> EmptyString ->
          HeaderMap w' !! "WWW-Authenticate" =
            Some ["Basic realm=" +:+ dquote +:+ Realm a +:+ dquote
                    +:+ ", charset=" +:+ dquote +:+ Charset a +:+ dquote]) /\
       (Realm a = EmptyString \/ Charset a = EmptyString ->
          HeaderMap w' !! "WWW-Authenticate" = None)).
Proof.
  split; [reflexivity|]. split; [reflexivity|].
  split; [intros [Hr Hc]; now apply SetWWWAuthenticate_set|].
  split; [apply SetWWWAuthenticate_skip|].
  intros Hw f w' Hf Hpath.
  assert (Hrun : f (SetWWWAuthenticate a w) r = Some w').
  { destruct Hpath as [[Hh Hs]|[Hh Hs]];
      [unfold SendInvalidSchemeResponse in Hs
      |unfold SendInvalidCredentialsResponse in Hs];
      rewrite Hh in Hs; exact Hs. }
  rewrite (Hf _ _ _ Hrun). split.
  - intros [Hr Hc]. rewrite (SetWWWAuthenticate_set a w Hr Hc). simpl.
    apply lookup_insert_eq.
  - intros He. now rewrite (SetWWWAuthenticate_skip a w He).
Qed.

End Gate.

(** ** The default handlers and the constructors *)
Section Constructors.
Import Http Basic.
Context {R : Type} `{!Request R}.

(** [http.Error] on a writer whose status is not written yet. *)
Lemma Error_fresh (error : string) (code : Z) (w : ResponseRecorder) :
  wroteHeader w = false ->
  Error error code w =
  mkRecorder code
    (<["X-Content-Type-Options" := ["nosniff"]]>
       (<["Content-Type" := ["text/plain; charset=utf-8"]]> (HeaderMap w)))
    (Body w +:+ error +:+ newline) true.
Proof.
  intros Hw. unfold Error, Write, WriteHeader, Header_Set. simpl.
  rewrite Hw. reflexivity.
Qed.

(** [http.Error] touches two headers only. *)
Lemma Error_headers (error : string) (code : Z) (w : ResponseRecorder) (key : string) :
  key <> "Content-Type" -> key <> "X-Content-Type-Options" ->
  HeaderMap (Error error code w) !! key = HeaderMap w !! key.
Proof.
  intros H1 H2. unfold Error, Write, WriteHeader, Header_Set. simpl.
  destruct (wroteHeader w); simpl; rewrite !lookup_insert_ne by congruence;
    reflexivity.
Qed.

Lemma defaultInvalidSchemeResponse_keeps :
  keeps_header (R := R) "WWW-Authenticate" defaultInvalidSchemeResponse.
Proof.
  intros w w' r Hrun. injection Hrun as <-. now apply Error_headers.
Qed.

Lemma defaultInvalidCredentialsResponse_keeps :
  keeps_header (R := R) "WWW-Authenticate" defaultInvalidCredentialsResponse.
Proof.
  intros w w' r Hrun. injection Hrun as <-. now apply Error_headers.
Qed.

(** C8.  Each default rejection handler, run on a response whose status is
    not written yet, writes the status 401 and one line of plain text:
    [Invalid authentication scheme!] for the scheme handler,
    [Invalid username and/or password!] for the credentials handler.  The
    only other effect is the two headers [http.Error] sets. *)
Theorem default_handlers_401 (users : gomap) (w : ResponseRecorder) (r : R) :
  wroteHeader w = false ->
  ServeHTTP (InvalidSchemeResponse (NewDefaultBasicAuth users)) w r =
    Some (mkRecorder 401
            (<["X-Content-Type-Options" := ["nosniff"]]>
               (<["Content-Type" := ["text/plain; charset=utf-8"]]> (HeaderMap w)))
            (Body w +:+ "Invalid authentication scheme!" +:+ newline) true) /\
  ServeHTTP (InvalidCredentialsResponse (NewDefaultBasicAuth users)) w r =
    Some (mkRecorder 401
            (<["X-Content-Type-Options" := ["nosniff"]]>
               (<["Content-Type" := ["text/plain; charset=utf-8"]]> (HeaderMap w)))
            (Body w +:+ "Invalid username and/or password!" +:+ newline) true).
Proof.
  intros Hw. simpl.
  unfold defaultInvalidSchemeResponse, defaultInvalidCredentialsResponse.
  now rewrite !(Error_fresh _ _ _ Hw).
Qed.

(** C7.  Both constructors are total and the configuration they return has
    an authenticator and both handlers set: [NewCustomBasicAuth] keeps what
    the caller gave and takes from the default configuration what the
    caller left nil. *)
Theorem constructors_well_formed
    (authenticator : option (string -> string -> bool)) (charset : string)
    (invalidCredentialsResponse invalidSchemeResponse : Handler R)
    (realm : string) (users : gomap) :
  let a := NewCustomBasicAuth authenticator charset invalidCredentialsResponse
             invalidSchemeResponse realm users in
  let d := NewDefaultBasicAuth users in
  (is_Some (Authenticator a) /\ is_Some (InvalidCredentialsResponse a) /\
   is_Some (InvalidSchemeResponse a)) /\
  (is_Some (Authenticator d) /\ is_Some (InvalidCredentialsResponse d) /\
   is_Some (InvalidSchemeResponse d)) /\
  Authenticator a = from_option Some (Authenticator d) authenticator /\
  InvalidCredentialsResponse a =
    from_option Some (InvalidCredentialsResponse d) invalidCredentialsResponse /\
  InvalidSchemeResponse a =
    from_option Some (InvalidSchemeResponse d) invalidSchemeResponse.
Proof.
  cbv zeta. unfold NewCustomBasicAuth, NewDefaultBasicAuth. simpl.
  destruct authenticator, invalidCredentialsResponse, invalidSchemeResponse;
    simpl; repeat split; eauto.
Qed.

(** C6, as the code has it.  The default configuration and the custom one
    built from the sentinels have the same authenticator, handlers, realm
    and users, and the gates made from them answer every request alike; the
    charset is [UTF-8] in the first and empty in the second. *)
Theorem default_vs_sentinels (users : gomap) :
  let d := NewDefaultBasicAuth users in
  let c := NewCustomBasicAuth None EmptyString None None EmptyString users in
  Authenticator c = Authenticator d /\
  InvalidCredentialsResponse c = InvalidCredentialsResponse d /\
  InvalidSchemeResponse c = InvalidSchemeResponse d /\
  Realm c = Realm d /\
  Users c = Users d /\
  Charset d = "UTF-8" /\ Charset c = EmptyString /\
  forall (next : Handler R) (w : ResponseRecorder) (r : R),
    ServeHTTP (Authenticate c next) w r = ServeHTTP (Authenticate d next) w r.
Proof.
  cbv zeta. unfold NewCustomBasicAuth, NewDefaultBasicAuth. simpl.
  repeat split.
  - now destruct (map_len users =? 0)%nat.
Qed.

End Constructors.

(** ** The tests of the package, replayed *)
Section Replay.
Import Http Basic.

(** The three paths, at the users table of the tests: no credentials, a
    pair the authenticator refuses, a pair it accepts. *)
Lemma Authenticate_paths_witness :
  let a := NewDefaultBasicAuth Tests.users in
  let anonymous := Tests.NewRequest in
  let stranger := Tests.SetBasicAuth "gery" "gery" Tests.NewRequest in
  let member := Tests.SetBasicAuth "gerysantoso" "gerysantoso" Tests.NewRequest in
  ServeHTTP (Authenticate a Tests.next) NewRecorder anonymous =
    ServeHTTP (InvalidSchemeResponse a) (SetWWWAuthenticate a NewRecorder) anonymous /\
  ServeHTTP (Authenticate a Tests.next) NewRecorder stranger =
    ServeHTTP (InvalidCredentialsResponse a) (SetWWWAuthenticate a NewRecorder) stranger /\
  ServeHTTP (Authenticate a Tests.next) NewRecorder member =
    ServeHTTP Tests.next NewRecorder member.
Proof.
  cbv zeta. split; [|split].
  - refine (proj1 (proj1 (Authenticate_paths (NewDefaultBasicAuth Tests.users)
              (defaultAuthenticator Tests.users) Tests.next NewRecorder
              Tests.NewRequest EmptyString EmptyString false _ _) _));
      reflexivity.
  - refine (proj1 (proj1 (proj2 (Authenticate_paths (NewDefaultBasicAuth Tests.users)
              (defaultAuthenticator Tests.users) Tests.next NewRecorder
              (Tests.SetBasicAuth "gery" "gery" Tests.NewRequest)
              "gery" "gery" true _ _)) _ _));
      try reflexivity; vm_compute; reflexivity.
  - refine (proj2 (proj2 (Authenticate_paths (NewDefaultBasicAuth Tests.users)
              (defaultAuthenticator Tests.users) Tests.next NewRecorder
              (Tests.SetBasicAuth "gerysantoso" "gerysantoso" Tests.NewRequest)
              "gerysantoso" "gerysantoso" true _ _)) _ _);
      try reflexivity; vm_compute; reflexivity.
Defined.

(** The authorized path with a realm and a charset set: the response is
    that of the protected handler of the tests, status 200 and no header. *)
Lemma Authenticate_authorized_witness :
  ServeHTTP (Authenticate Tests.private Tests.next) NewRecorder
    (Tests.SetBasicAuth "gerysantoso" "gerysantoso" Tests.NewRequest) =
  Some (mkRecorder StatusOK ∅ EmptyString true).
Proof.
  rewrite (Authenticate_authorized Tests.private (defaultAuthenticator Tests.users)
             Tests.next NewRecorder
             (Tests.SetBasicAuth "gerysantoso" "gerysantoso" Tests.NewRequest)
             "gerysantoso" "gerysantoso");
    try reflexivity; vm_compute; reflexivity.
Defined.

(** [test_www_authenticate]: the rejected response carries the challenge of
    the realm [Test]; with the default configuration, whose realm is empty,
    it carries none. *)
Lemma challenge_on_rejection_witness :
  (exists w' : ResponseRecorder,
      SendInvalidSchemeResponse Tests.private NewRecorder Tests.NewRequest = Some w' /\
      HeaderMap w' !! "WWW-Authenticate" =
        Some ["Basic realm=" +:+ dquote +:+ "Test" +:+ dquote
                +:+ ", charset=" +:+ dquote +:+ "UTF-8" +:+ dquote]) /\
  (exists w' : ResponseRecorder,
      SendInvalidCredentialsResponse (NewDefaultBasicAuth Tests.users) NewRecorder
        Tests.NewRequest = Some w' /\
      HeaderMap w' !! "WWW-Authenticate" = None).
Proof.
  split; eexists; (split; [reflexivity|]).
  - refine (proj1 (proj2 (proj2 (proj2 (proj2
             (challenge_on_rejection Tests.private NewRecorder Tests.NewRequest))))
             _ defaultInvalidSchemeResponse _
             defaultInvalidSchemeResponse_keeps _) _).
    + reflexivity.
    + left. split; reflexivity.
    + split; discriminate.
  - refine (proj2 (proj2 (proj2 (proj2 (proj2
             (challenge_on_rejection (NewDefaultBasicAuth Tests.users) NewRecorder
                Tests.NewRequest))))
             _ defaultInvalidCredentialsResponse _
             defaultInvalidCredentialsResponse_keeps _) _).
    + reflexivity.
    + right. split; reflexivity.
    + left. reflexivity.
Defined.

(** The default handlers on a new recorder. *)
Lemma default_handlers_401_witness :
  Code <$> ServeHTTP (InvalidSchemeResponse (NewDefaultBasicAuth Tests.users))
             NewRecorder Tests.NewRequest = Some 401%Z /\
  Body <$> ServeHTTP (InvalidCredentialsResponse (NewDefaultBasicAuth Tests.users))
             NewRecorder Tests.NewRequest =
    Some ("Invalid username and/or password!" +:+ newline).
Proof.
  assert (Hfresh : wroteHeader NewRecorder = false) by reflexivity.
  destruct (default_handlers_401 Tests.users NewRecorder Tests.NewRequest Hfresh)
    as [Hs Hc].
  rewrite Hs, Hc. split; reflexivity.
Defined.

(** C6, as the specification states it, fails: the two configurations differ
    in their charset. *)
Lemma default_is_not_sentinels :
  NewDefaultBasicAuth (R := TestRequest) None <>
  NewCustomBasicAuth None EmptyString None None EmptyString None.
Proof.
  intros E. apply (f_equal Charset) in E. discriminate E.
Qed.

(** The cases of [TestAuthenticate] and the status each one gets. *)
Example test_success_same_username_and_password :
  Code <$> Tests.run (NewDefaultBasicAuth Tests.users) "gerysantoso" "gerysantoso"
    = Some StatusOK.
Proof. vm_compute. reflexivity. Qed.

Example test_invalid_scheme :
  Code <$> Tests.run (NewDefaultBasicAuth None) EmptyString EmptyString
    = Some StatusUnauthorized.
Proof. vm_compute. reflexivity. Qed.

Example test_invalid_credentials_1 :
  Code <$> Tests.run (NewDefaultBasicAuth Tests.users) "gery" "gery"
    = Some StatusUnauthorized.
Proof. vm_compute. reflexivity. Qed.

Example test_invalid_credentials_2 :
  Code <$> Tests.run (NewDefaultBasicAuth Tests.users) "test" "wrong_password"
    = Some StatusUnauthorized.
Proof. vm_compute. reflexivity. Qed.

Example test_www_authenticate :
  Code <$> Tests.run Tests.private EmptyString EmptyString = Some StatusUnauthorized.
Proof. vm_compute. reflexivity. Qed.

Example test_www_authenticate_header :
  Header_Get "WWW-Authenticate" <$> Tests.run Tests.private EmptyString EmptyString
    = Some ("Basic realm=" +:+ dquote +:+ "Test" +:+ dquote
              +:+ ", charset=" +:+ dquote +:+ "UTF-8" +:+ dquote).
Proof. vm_compute. reflexivity. Qed.

Example test_empty_charset_users_and_realm :
  Code <$> Tests.run
             (NewCustomBasicAuth None EmptyString None None EmptyString None)
             EmptyString EmptyString
    = Some StatusUnauthorized.
Proof. vm_compute. reflexivity. Qed.

End Replay.

(** * Further properties of the package *)

(** ** The comparison and the default authenticator *)
Section VerifierMore.
Import Http Basic.

(** X1.  [CompareInputs] is an equivalence on strings: a string compares equal
    to itself, the order of the two arguments does not matter, and two
    strings that both match a third match each other. *)
Theorem CompareInputs_equivalence :
  (forall input : string, CompareInputs input input = true) /\
  (forall input expected : string,
      CompareInputs input expected = CompareInputs expected input) /\
  (forall a b c : string,
      CompareInputs a b = true -> CompareInputs b c = true ->
      CompareInputs a c = true).
Proof.
  split; [exact CompareInputs_refl|]. split.
  - intros input expected.
    destruct (CompareInputs input expected) eqn:E1,
             (CompareInputs expected input) eqn:E2; try reflexivity.
    + apply CompareInputs_digests in E1. symmetry in E1.
      apply CompareInputs_digests in E1. congruence.
    + apply CompareInputs_digests in E2. symmetry in E2.
      apply CompareInputs_digests in E2. congruence.
  - intros a b c Hab Hbc. apply CompareInputs_digests.
    apply CompareInputs_digests in Hab, Hbc. congruence.
Qed.

(** X2.  The default authenticator looks at one entry of the table only: two
    tables that hold the same thing under the username (the same value, or
    nothing) give the same answer, whatever other users they hold. *)
Theorem defaultAuthenticator_local (users users' : gomap) (username password : string) :
  map_lookup users username = map_lookup users' username ->
  defaultAuthenticator users username password =
  defaultAuthenticator users' username password.
Proof.
  intros E. destruct (map_lookup users username) as [val|] eqn:Hk.
  - rewrite (defaultAuthenticator_found users _ _ val Hk).
    now rewrite (defaultAuthenticator_found users' _ _ val (eq_sym E)).
  - rewrite (defaultAuthenticator_absent users _ _ Hk).
    now rewrite (defaultAuthenticator_absent users' _ _ (eq_sym E)).
Qed.

(** Removing [a_username] from the table of the tests changes nothing for
    [gerysantoso]. *)
Lemma defaultAuthenticator_local_witness :
  defaultAuthenticator Tests.users "gerysantoso" "gerysantoso" =
  defaultAuthenticator (Some {["gerysantoso" := "gerysantoso"]})
    "gerysantoso" "gerysantoso".
Proof.
  apply (defaultAuthenticator_local Tests.users
           (Some {["gerysantoso" := "gerysantoso"]}) "gerysantoso" "gerysantoso").
  reflexivity.
Defined.

End VerifierMore.

(** ** The gate *)
Section GateMore.
Import Http Basic.
Context {R : Type} `{!Request R}.

(** [SetWWWAuthenticate] writes neither status nor body. *)
Lemma SetWWWAuthenticate_fields (a : BasicAuth R) (w : ResponseRecorder) :
  Code (SetWWWAuthenticate a w) = Code w /\
  Body (SetWWWAuthenticate a w) = Body w /\
  wroteHeader (SetWWWAuthenticate a w) = wroteHeader w.
Proof.
  unfold SetWWWAuthenticate.
  destruct (negb (String.eqb (Realm a) EmptyString)
            && negb (String.eqb (Charset a) EmptyString)); repeat split.
Qed.

(** What the gate does, by cases on the request. *)
Lemma gate_cases (a : BasicAuth R) (next : Handler R) (w : ResponseRecorder) (r : R)
    (username password : string) (ok : bool) :
  Request_BasicAuth r = (username, password, ok) ->
  ServeHTTP (Authenticate a next) w r =
  if negb ok then SendInvalidSchemeResponse a w r
  else match Authenticator a with
       | None => None
       | Some authenticator =>
           if negb (authenticator username password)
           then SendInvalidCredentialsResponse a w r
           else ServeHTTP next w r
       end.
Proof.
  intros Hr. unfold Authenticate, ServeHTTP at 1, gate. now rewrite Hr.
Qed.

(** X3.  Wrapping a handler twice in the gate of one configuration is the same
    as wrapping it once: a request the outer gate lets through is let
    through by the inner one, and a request it rejects never reaches it. *)
Theorem Authenticate_twice (a : BasicAuth R) (next : Handler R)
    (w : ResponseRecorder) (r : R) :
  ServeHTTP (Authenticate a (Authenticate a next)) w r =
  ServeHTTP (Authenticate a next) w r.
Proof.
  destruct (Request_BasicAuth r) as [[username password] ok] eqn:Hr.
  rewrite (gate_cases a (Authenticate a next) w r _ _ _ Hr).
  rewrite (gate_cases a next w r _ _ _ Hr).
  destruct ok; simpl; [|reflexivity].
  destruct (Authenticator a) as [authenticator|] eqn:Ha; [|reflexivity].
  destruct (authenticator username password) eqn:Hf; simpl; reflexivity.
Qed.

(** X4.  The authenticator is called only after a successful extraction.  With
    no well-formed credentials the response does not depend on the
    [Authenticator] field, which can even be nil; with credentials, a nil
    [Authenticator] makes the gate panic. *)
Theorem Authenticator_after_extraction (a : BasicAuth R) (next : Handler R)
    (w : ResponseRecorder) (r : R) (username password : string) (ok : bool) :
  Request_BasicAuth r = (username, password, ok) ->
  (ok = false ->
     forall authenticator' : option (string -> string -> bool),
       ServeHTTP (Authenticate
                    (mkBasicAuth authenticator' (Charset a)
                       (InvalidCredentialsResponse a) (InvalidSchemeResponse a)
                       (Realm a) (Users a)) next) w r =
       ServeHTTP (Authenticate a next) w r) /\
  (ok = true -> Authenticator a = None ->
     ServeHTTP (Authenticate a next) w r = None).
Proof.
  intros Hr. split.
  - intros -> authenticator'.
    rewrite !(gate_cases _ next w r _ _ _ Hr). reflexivity.
  - intros -> Ha. rewrite (gate_cases _ next w r _ _ _ Hr), Ha. reflexivity.
Qed.

(** X5.  The gate of a constructed configuration does not panic by itself: when
    the handlers the caller supplied and the wrapped handler always return,
    so does the gate, for every request. *)
Theorem constructed_gate_returns
    (authenticator : option (string -> string -> bool)) (charset : string)
    (invalidCredentialsResponse invalidSchemeResponse : Handler R)
    (realm : string) (users : gomap)
    (next : Handler R) (w : ResponseRecorder) (r : R) :
  (forall f, invalidCredentialsResponse = Some f -> forall w0 r0, is_Some (f w0 r0)) ->
  (forall f, invalidSchemeResponse = Some f -> forall w0 r0, is_Some (f w0 r0)) ->
  (forall w0 r0, is_Some (ServeHTTP next w0 r0)) ->
  is_Some (ServeHTTP
             (Authenticate
                (NewCustomBasicAuth authenticator charset invalidCredentialsResponse
                   invalidSchemeResponse realm users) next) w r).
Proof.
  intros Hc Hs Hn.
  destruct (Request_BasicAuth r) as [[username password] ok] eqn:Hr.
  rewrite (gate_cases _ next w r _ _ _ Hr).
  unfold SendInvalidSchemeResponse, SendInvalidCredentialsResponse,
    NewCustomBasicAuth, NewDefaultBasicAuth. simpl.
  destruct ok; simpl.
  - assert (Hcred : forall w0, is_Some
              (ServeHTTP match invalidCredentialsResponse with
                         | Some _ => invalidCredentialsResponse
                         | None => Some defaultInvalidCredentialsResponse
                         end w0 r)).
    { intros w0. destruct invalidCredentialsResponse as [f|]; simpl;
        [now apply (Hc f) | eauto]. }
    destruct authenticator as [f|]; simpl.
    + destruct (f username password); simpl; [apply Hn | apply Hcred].
    + destruct (defaultAuthenticator users username password); simpl;
        [apply Hn | apply Hcred].
  - destruct invalidSchemeResponse as [f|]; simpl; [now apply (Hs f) | eauto].
Qed.

(** X6.  [SetWWWAuthenticate] touches nothing but the [WWW-Authenticate] header:
    status, body and every other header stay as they were; and calling it
    twice is the same as calling it once. *)
Theorem SetWWWAuthenticate_frame (a : BasicAuth R) (w : ResponseRecorder) :
  Code (SetWWWAuthenticate a w) = Code w /\
  Body (SetWWWAuthenticate a w) = Body w /\
  wroteHeader (SetWWWAuthenticate a w) = wroteHeader w /\
  (forall key : string,
      key <> "WWW-Authenticate" ->
      HeaderMap (SetWWWAuthenticate a w) !! key = HeaderMap w !! key) /\
  SetWWWAuthenticate a (SetWWWAuthenticate a w) = SetWWWAuthenticate a w.
Proof.
  unfold SetWWWAuthenticate.
  destruct (negb (String.eqb (Realm a) EmptyString)
            && negb (String.eqb (Charset a) EmptyString)); simpl.
  - repeat split; try reflexivity.
    + intros key Hk. now rewrite lookup_insert_ne by congruence.
    + unfold Header_Set. simpl. now rewrite insert_insert_eq.
  - repeat split; reflexivity.
Qed.

(** X7.  With a caller's own authenticator the users table is never read: two
    configurations that differ in their users only answer every request
    alike. *)
Theorem custom_authenticator_ignores_users
    (authenticator : string -> string -> bool) (charset : string)
    (invalidCredentialsResponse invalidSchemeResponse : Handler R)
    (realm : string) (users users' : gomap)
    (next : Handler R) (w : ResponseRecorder) (r : R) :
  ServeHTTP
    (Authenticate
       (NewCustomBasicAuth (Some authenticator) charset invalidCredentialsResponse
          invalidSchemeResponse realm users) next) w r =
  ServeHTTP
    (Authenticate
       (NewCustomBasicAuth (Some authenticator) charset invalidCredentialsResponse
          invalidSchemeResponse realm users') next) w r.
Proof.
  destruct (Request_BasicAuth r) as [[username password] ok] eqn:Hr.
  rewrite !(gate_cases _ next w r _ _ _ Hr).
  unfold SendInvalidSchemeResponse, SendInvalidCredentialsResponse,
    SetWWWAuthenticate, NewCustomBasicAuth, NewDefaultBasicAuth. simpl.
  destruct invalidCredentialsResponse, invalidSchemeResponse; reflexivity.
Qed.

(** [http.Error] on any writer: the status is the one given unless a status
    was written before. *)
Lemma Error_result (error : string) (code : Z) (w : ResponseRecorder) :
  Error error code w =
  mkRecorder (if wroteHeader w then Code w else code)
    (<["X-Content-Type-Options" := ["nosniff"]]>
       (<["Content-Type" := ["text/plain; charset=utf-8"]]> (HeaderMap w)))
    (Body w +:+ error +:+ newline) true.
Proof.
  unfold Error, Write, WriteHeader, Header_Set. simpl.
  destruct (wroteHeader w) eqn:Hw; simpl; rewrite ?Hw; reflexivity.
Qed.

(** X8.  A configuration that keeps the default handlers answers every rejected
    request with one line of plain text, the scheme message when no
    credentials could be read and the credentials message otherwise.  The
    status is 401, unless a status was already written on the response
    before the gate ran: then that status stays.  The challenge is set when
    realm and charset are both non-empty, and the header is left as it was
    otherwise. *)
Theorem default_rejection_response
    (authenticator : option (string -> string -> bool)) (charset realm : string)
    (users : gomap) (f : string -> string -> bool)
    (next : Handler R) (w : ResponseRecorder) (r : R)
    (username password : string) (ok : bool) :
  let a := NewCustomBasicAuth authenticator charset None None realm users in
  Authenticator a = Some f ->
  Request_BasicAuth r = (username, password, ok) ->
  ok = false \/ f username password = false ->
  exists w' : ResponseRecorder,
    ServeHTTP (Authenticate a next) w r = Some w' /\
    Code w' = (if wroteHeader w then Code w else 401%Z) /\
    Body w' =
      Body w +:+ (if ok then "Invalid username and/or password!"
                  else "Invalid authentication scheme!") +:+ newline /\
    HeaderMap w' !! "WWW-Authenticate" =
      (if negb (String.eqb realm EmptyString) && negb (String.eqb charset EmptyString)
       then Some ["Basic realm=" +:+ dquote +:+ realm +:+ dquote
                    +:+ ", charset=" +:+ dquote +:+ charset +:+ dquote]
       else HeaderMap w !! "WWW-Authenticate").
Proof.
  cbv zeta. intros Ha Hr Hrej.
  set (a := NewCustomBasicAuth (R := R) authenticator charset None None realm users)
    in *.
  rewrite (gate_cases a next w r _ _ _ Hr), Ha.
  assert (Hhdr : forall (error : string),
    HeaderMap (Error error StatusUnauthorized (SetWWWAuthenticate a w))
      !! "WWW-Authenticate" =
    (if negb (String.eqb realm EmptyString) && negb (String.eqb charset EmptyString)
     then Some [challenge realm charset]
     else HeaderMap w !! "WWW-Authenticate")).
  { intros error. rewrite Error_headers by discriminate.
    unfold SetWWWAuthenticate. simpl.
    destruct (negb (String.eqb realm EmptyString)
              && negb (String.eqb charset EmptyString)); simpl;
      [apply lookup_insert_eq | reflexivity]. }
  pose proof (SetWWWAuthenticate_fields a w) as (Hcode & Hbody & Hwrote).
  assert (Hrun : forall error : string,
    exists w' : ResponseRecorder,
      Some (Error error StatusUnauthorized (SetWWWAuthenticate a w)) = Some w' /\
      Code w' = (if wroteHeader w then Code w else 401%Z) /\
      Body w' = Body w +:+ error +:+ newline /\
      HeaderMap w' !! "WWW-Authenticate" =
        (if negb (String.eqb realm EmptyString)
            && negb (String.eqb charset EmptyString)
         then Some [challenge realm charset]
         else HeaderMap w !! "WWW-Authenticate")).
  { intros error. eexists. split; [reflexivity|].
    rewrite Hhdr, Error_result. simpl. rewrite Hcode, Hbody, Hwrote.
    repeat split. }
  destruct ok; simpl.
  - destruct Hrej as [Hrej|Hrej]; [discriminate|]. rewrite Hrej. simpl.
    apply Hrun.
  - apply Hrun.
Qed.

End GateMore.

(** ** The further properties at the tests' table *)
Section ReplayMore.
Import Http Basic.

(** A configuration written as a struct literal with no authenticator, and
    two requests: one without credentials, one with. *)
Lemma Authenticator_after_extraction_witness :
  let a := mkBasicAuth (R := TestRequest) None "UTF-8"
             (Some defaultInvalidCredentialsResponse)
             (Some defaultInvalidSchemeResponse) "Test" Tests.users in
  ServeHTTP (Authenticate
               (mkBasicAuth (Some (defaultAuthenticator Tests.users)) (Charset a)
                  (InvalidCredentialsResponse a) (InvalidSchemeResponse a)
                  (Realm a) (Users a)) Tests.next) NewRecorder Tests.NewRequest =
    ServeHTTP (Authenticate a Tests.next) NewRecorder Tests.NewRequest /\
  ServeHTTP (Authenticate a Tests.next) NewRecorder
    (Tests.SetBasicAuth "gerysantoso" "gerysantoso" Tests.NewRequest) = None.
Proof.
  cbv zeta. split.
  - refine (proj1 (Authenticator_after_extraction _ Tests.next NewRecorder
                     Tests.NewRequest EmptyString EmptyString false _) _ _);
      reflexivity.
  - refine (proj2 (Authenticator_after_extraction _ Tests.next NewRecorder
                     (Tests.SetBasicAuth "gerysantoso" "gerysantoso" Tests.NewRequest)
                     "gerysantoso" "gerysantoso" true _) _ _);
      reflexivity.
Defined.

(** The configuration of [test_www_authenticate] under the handler of the
    tests, on a request with unknown credentials. *)
Lemma constructed_gate_returns_witness :
  is_Some (ServeHTTP (Authenticate Tests.private Tests.next) NewRecorder
             (Tests.SetBasicAuth "gery" "gery" Tests.NewRequest)).
Proof.
  apply (constructed_gate_returns None "UTF-8" None None "Test" Tests.users
           Tests.next NewRecorder
           (Tests.SetBasicAuth "gery" "gery" Tests.NewRequest)).
  - intros f Hf. discriminate Hf.
  - intros f Hf. discriminate Hf.
  - intros w0 r0. simpl. eauto.
Defined.

(** [test_www_authenticate]: status 401, the scheme message and the
    challenge of the realm [Test]. *)
Lemma default_rejection_response_witness :
  exists w' : ResponseRecorder,
    ServeHTTP (Authenticate Tests.private Tests.next) NewRecorder Tests.NewRequest
      = Some w' /\
    Code w' = 401%Z /\
    Body w' = "Invalid authentication scheme!" +:+ newline /\
    HeaderMap w' !! "WWW-Authenticate" =
      Some ["Basic realm=" +:+ dquote +:+ "Test" +:+ dquote
              +:+ ", charset=" +:+ dquote +:+ "UTF-8" +:+ dquote].
Proof.
  refine (default_rejection_response None "UTF-8" "Test" Tests.users
            (defaultAuthenticator Tests.users) Tests.next NewRecorder
            Tests.NewRequest EmptyString EmptyString false _ _ _).
  - reflexivity.
  - reflexivity.
  - left. reflexivity.
Defined.

End ReplayMore.

(** * The example program *)
Section ExampleRoutes.
Import Http Basic.
Context {R : Type} `{!Request R} {Value : Type}.
Variable http_StatusText : Z -> string.
Variable Encode : Example.Response Value -> option string.

#[local] Arguments CompareInputs : simpl never.
#[local] Arguments defaultAuthenticator : simpl never.
#[local] Arguments Sha256.Sum256 : simpl never.

(** The sample table holds one user: the default authenticator accepts a
    pair exactly when the username is [gerysantoso] and the password
    compares equal to [gerysantoso]. *)
Lemma example_authenticator (username password : string) :
  defaultAuthenticator Example.users username password =
  String.eqb username "gerysantoso" && CompareInputs password "gerysantoso".
Proof.
  destruct (String.eqb_spec username "gerysantoso") as [->|Hne].
  - rewrite (defaultAuthenticator_found Example.users _ _ "gerysantoso").
    + now rewrite CompareInputs_refl.
    + apply lookup_singleton_eq.
  - rewrite andb_false_l. apply defaultAuthenticator_absent.
    apply lookup_singleton_ne. congruence.
Qed.

(** X9.  In the complex configuration the two handlers are given in the order
    scheme, credentials, and [NewCustomBasicAuth] takes them in the order
    credentials, scheme.  So [/complex] answers a request without
    well-formed credentials with the failure [BAUTH: E0002] (invalid
    username and/or password), and a request with refused credentials with
    the failure [BAUTH: E0001] (invalid authentication scheme); both carry
    the challenge of the realm [Secret].  An accepted request gets the
    success response. *)
Theorem complex_route_responses (w : ResponseRecorder) (r : R)
    (username password : string) (ok : bool) :
  Request_BasicAuth r = (username, password, ok) ->
  let challenged :=
    Header_Set "WWW-Authenticate"
      ("Basic realm=" +:+ dquote +:+ "Secret" +:+ dquote
         +:+ ", charset=" +:+ dquote +:+ "UTF-8" +:+ dquote) w in
  (ok = false ->
     ServeHTTP (Example.route_complex http_StatusText Encode) w r =
     Some (Example.SendFailure http_StatusText Encode challenged StatusUnauthorized
             "Invalid username and/or password!" "BAUTH: E0002")) /\
  (ok = true -> defaultAuthenticator Example.users username password = false ->
     ServeHTTP (Example.route_complex http_StatusText Encode) w r =
     Some (Example.SendFailure http_StatusText Encode challenged StatusUnauthorized
             "Invalid authentication scheme!" "BAUTH: E0001")) /\
  (ok = true -> defaultAuthenticator Example.users username password = true ->
     ServeHTTP (Example.route_complex http_StatusText Encode) w r =
     Some (Example.SendSuccess http_StatusText Encode w StatusOK
             "Successfully authenticated!" [])).
Proof.
  intros Hr. cbv zeta. unfold Example.route_complex.
  rewrite (gate_cases _ _ w r _ _ _ Hr).
  split; [|split].
  - intros ->. reflexivity.
  - intros -> Hf. simpl. rewrite Hf. reflexivity.
  - intros -> Hf. simpl. rewrite Hf. reflexivity.
Qed.

(** X10.  [/simple] on a response whose status is not written yet: the welcome
    page with status 200 is served exactly to the username [gerysantoso]
    with a password of the digest of [gerysantoso]; every other request
    gets the status 401 and the challenge of the realm [Private], and the
    welcome text is not written. *)
Theorem simple_route_responses (w : ResponseRecorder) (r : R)
    (username password : string) (ok : bool) :
  wroteHeader w = false ->
  Request_BasicAuth r = (username, password, ok) ->
  let accepted :=
    ok = true /\ username = "gerysantoso" /\
    Sha256.Sum256 (bytes_of_string password) =
    Sha256.Sum256 (bytes_of_string "gerysantoso") in
  (accepted ->
     ServeHTTP Example.route_simple w r =
     Some (mkRecorder 200 (<["Content-Type" := ["text/plain"]]> (HeaderMap w))
             (Body w +:+ "Welcome to the private endpoint!") true)) /\
  (~ accepted ->
     exists w' : ResponseRecorder,
       ServeHTTP Example.route_simple w r = Some w' /\
       Code w' = 401%Z /\
       HeaderMap w' !! "WWW-Authenticate" =
         Some ["Basic realm=" +:+ dquote +:+ "Private" +:+ dquote
                 +:+ ", charset=" +:+ dquote +:+ "UTF-8" +:+ dquote] /\
       (Body w' = Body w +:+ "Invalid authentication scheme!" +:+ newline \/
        Body w' = Body w +:+ "Invalid username and/or password!" +:+ newline)).
Proof.
  intros Hw Hr. cbv zeta. unfold Example.route_simple.
  rewrite (gate_cases _ _ w r _ _ _ Hr).
  change (Authenticator (Example.basicAuthSimple (R := R)))
    with (Some (defaultAuthenticator Example.users)).
  cbv iota beta. rewrite example_authenticator.
  change (ServeHTTP (Some Example.simpleAuth) w r) with (Example.simpleAuth w r).
  assert (Hrej : forall error : string,
    exists w' : ResponseRecorder,
      Some (Error error StatusUnauthorized
              (SetWWWAuthenticate (Example.basicAuthSimple (R := R)) w)) = Some w' /\
      Code w' = 401%Z /\
      HeaderMap w' !! "WWW-Authenticate" =
        Some ["Basic realm=" +:+ dquote +:+ "Private" +:+ dquote
                +:+ ", charset=" +:+ dquote +:+ "UTF-8" +:+ dquote] /\
      Body w' = Body w +:+ error +:+ newline).
  { intros error. eexists. split; [reflexivity|].
    rewrite Error_headers by discriminate. rewrite Error_result.
    cbn [Code Body].
    destruct (SetWWWAuthenticate_fields (Example.basicAuthSimple (R := R)) w)
      as (_ & Hbody & Hwrote).
    rewrite Hwrote, Hbody, Hw.
    split; [reflexivity|]. split; [|reflexivity].
    rewrite SetWWWAuthenticate_set by discriminate.
    apply lookup_insert_eq. }
  split.
  - intros (-> & -> & Hp). apply CompareInputs_digests in Hp.
    rewrite Hp, String.eqb_refl. cbn [negb andb].
    unfold Example.simpleAuth, Write, WriteHeader, Header_Set.
    cbn [wroteHeader Code HeaderMap Body]. rewrite Hw.
    cbn [wroteHeader Code HeaderMap Body]. reflexivity.
  - intros Hno. destruct ok; cbn [negb].
    + destruct (String.eqb username "gerysantoso" && CompareInputs password "gerysantoso")
        eqn:Hacc; cbn [negb].
      * exfalso. apply Hno. apply andb_true_iff in Hacc as [Hu Hp].
        apply String.eqb_eq in Hu. apply CompareInputs_digests in Hp.
        split; [reflexivity|]. split; assumption.
      * destruct (Hrej "Invalid username and/or password!")
          as (w' & Hrun & Hcode & Hhdr & Hbody).
        exists w'. split; [exact Hrun|]. split; [exact Hcode|].
        split; [exact Hhdr|]. right. exact Hbody.
    + destruct (Hrej "Invalid authentication scheme!")
        as (w' & Hrun & Hcode & Hhdr & Hbody).
      exists w'. split; [exact Hrun|]. split; [exact Hcode|].
      split; [exact Hhdr|]. left. exact Hbody.
Qed.

End ExampleRoutes.

(** ** The example program, run *)
Section ExampleRun.
Import Http Basic.

(** [/complex] with the plain encoder: a request without credentials and a
    request with unknown ones. *)
Lemma complex_route_responses_witness :
  Body <$> ServeHTTP (Example.route_complex Example.status_text Example.encode_plain)
             NewRecorder Tests.NewRequest =
    Body <$> Some (Example.SendFailure Example.status_text Example.encode_plain
                     NewRecorder StatusUnauthorized
                     "Invalid username and/or password!" "BAUTH: E0002") /\
  Body <$> ServeHTTP (Example.route_complex Example.status_text Example.encode_plain)
             NewRecorder (Tests.SetBasicAuth "gery" "gery" Tests.NewRequest) =
    Body <$> Some (Example.SendFailure Example.status_text Example.encode_plain
                     NewRecorder StatusUnauthorized
                     "Invalid authentication scheme!" "BAUTH: E0001").
Proof.
  split.
  - assert (Hr : Request_BasicAuth Tests.NewRequest = (EmptyString, EmptyString, false))
      by reflexivity.
    rewrite (proj1 (complex_route_responses Example.status_text Example.encode_plain
                      NewRecorder _ _ _ _ Hr) eq_refl).
    reflexivity.
  - assert (Hr : Request_BasicAuth (Tests.SetBasicAuth "gery" "gery" Tests.NewRequest)
                 = ("gery", "gery", true)) by reflexivity.
    assert (Hf : defaultAuthenticator Example.users "gery" "gery" = false)
      by (vm_compute; reflexivity).
    rewrite (proj1 (proj2 (complex_route_responses Example.status_text
                             Example.encode_plain NewRecorder _ _ _ _ Hr)) eq_refl Hf).
    reflexivity.
Defined.

(** [/simple] for the sample user. *)
Lemma simple_route_responses_witness :
  ServeHTTP Example.route_simple NewRecorder
    (Tests.SetBasicAuth "gerysantoso" "gerysantoso" Tests.NewRequest) =
  Some (mkRecorder 200 (<["Content-Type" := ["text/plain"]]> ∅)
          "Welcome to the private endpoint!" true).
Proof.
  assert (Hw : wroteHeader NewRecorder = false) by reflexivity.
  assert (Hr : Request_BasicAuth
                 (Tests.SetBasicAuth "gerysantoso" "gerysantoso" Tests.NewRequest)
               = ("gerysantoso", "gerysantoso", true)) by reflexivity.
  apply (proj1 (simple_route_responses NewRecorder _ _ _ _ Hw Hr)).
  repeat split.
Defined.

End ExampleRun.

(** * The default authenticator without users, and the driver of the tests *)
Section Lockout.
Import Http Basic.
Context {R : Type} `{!Request R}.

(** X11.  With the default authenticator and no users (a nil or an empty map) the
    gate lets no request through: whatever the request, the response does
    not depend on the wrapped handler, which is never run. *)
Theorem no_users_no_access
    (charset : string) (invalidCredentialsResponse invalidSchemeResponse : Handler R)
    (realm : string) (users : gomap)
    (next next' : Handler R) (w : ResponseRecorder) (r : R) :
  map_len users = O ->
  ServeHTTP
    (Authenticate
       (NewCustomBasicAuth None charset invalidCredentialsResponse
          invalidSchemeResponse realm users) next) w r =
  ServeHTTP
    (Authenticate
       (NewCustomBasicAuth None charset invalidCredentialsResponse
          invalidSchemeResponse realm users) next') w r.
Proof.
  intros Hn.
  destruct (Request_BasicAuth r) as [[username password] ok] eqn:Hr.
  rewrite !(gate_cases _ _ w r _ _ _ Hr).
  destruct ok; cbn [negb]; [|reflexivity].
  change (Authenticator
            (NewCustomBasicAuth None charset invalidCredentialsResponse
               invalidSchemeResponse realm users))
    with (Some (defaultAuthenticator users)).
  cbv iota beta.
  now rewrite (defaultAuthenticator_no_users users username password Hn).
Qed.

End Lockout.

Section Driver.
Import Http Basic.

(** [test_invalid_scheme]: the default configuration over the nil map, with
    the handler of the tests and with no handler at all. *)
Lemma no_users_no_access_witness :
  ServeHTTP (Authenticate
               (NewCustomBasicAuth None "UTF-8" None None EmptyString None) Tests.next)
    NewRecorder (Tests.SetBasicAuth "gerysantoso" "gerysantoso" Tests.NewRequest) =
  ServeHTTP (Authenticate
               (NewCustomBasicAuth None "UTF-8" None None EmptyString None) None)
    NewRecorder (Tests.SetBasicAuth "gerysantoso" "gerysantoso" Tests.NewRequest).
Proof.
  apply (no_users_no_access "UTF-8" None None EmptyString None Tests.next None).
  reflexivity.
Defined.

(** X12.  The driver of the tests sets the credentials only when the username
    and the password of the case are both non-empty.  A case with an empty
    username or an empty password sends a request without an
    [Authorization] header: it runs the invalid-scheme path of the
    configuration, whatever the other field of the case holds. *)
Theorem run_without_credentials (auth : BasicAuth TestRequest)
    (username password : string) :
  username = EmptyString \/ password = EmptyString ->
  Tests.run auth username password =
  SendInvalidSchemeResponse auth NewRecorder Tests.NewRequest.
Proof.
  intros He. unfold Tests.run. cbv zeta.
  assert (Hb : negb (String.eqb username EmptyString)
               && negb (String.eqb password EmptyString) = false).
  { destruct He as [->| ->]; [reflexivity|]. apply andb_false_r. }
  rewrite Hb.
  apply (gate_cases auth Tests.next NewRecorder Tests.NewRequest
           EmptyString EmptyString false).
  reflexivity.
Qed.

(** A case with a username and no password, on the table of the tests. *)
Lemma run_without_credentials_witness :
  Tests.run (NewDefaultBasicAuth Tests.users) "gerysantoso" EmptyString =
  SendInvalidSchemeResponse (NewDefaultBasicAuth Tests.users) NewRecorder
    Tests.NewRequest.
Proof.
  apply (run_without_credentials (NewDefaultBasicAuth Tests.users)
           "gerysantoso" EmptyString).
  right. reflexivity.
Defined.

End Driver.

(** * The digest: the whole padded message is hashed *)
Section DigestMore.
Local Open Scope Z_scope.

(** The padded message is a whole number of 64-byte chunks. *)
Lemma pad_length (data : list Z) :
  (length (Sha256.pad data) mod 64 = 0)%nat.
Proof.
  unfold Sha256.pad. cbv zeta.
  rewrite !length_app, repeat_length, be_bytes_length. simpl length.
  set (len := length data).
  pose proof (Z.mod_pos_bound (55 - Z.of_nat len) 64 ltac:(lia)) as Hk.
  pose proof (Z.div_mod (55 - Z.of_nat len) 64 ltac:(lia)) as Hq.
  set (k := (55 - Z.of_nat len) mod 64) in *.
  set (q := (55 - Z.of_nat len) / 64) in *.
  assert (Hq0 : q <= 0) by lia.
  assert (Hsum : (len + (1 + (Z.to_nat k + 8)))%nat = (Z.to_nat (1 - q) * 64)%nat)
    by lia.
  rewrite Hsum. apply Nat.Div0.mod_mul.
Qed.

(** More fuel than the length of the input changes nothing: [blocks] stops
    because the input is used up, not because the fuel is. *)
Lemma blocks_fuel (fuel : nat) :
  forall (dig : Sha256.digest) (p : list Z),
    (length p <= fuel)%nat ->
    Sha256.blocks (S fuel) dig p = Sha256.blocks fuel dig p.
Proof.
  induction fuel as [|fuel IH]; intros dig p Hlen.
  - destruct p; [reflexivity | simpl in Hlen; lia].
  - change (Sha256.blocks (S (S fuel)) dig p)
      with (if (length p <? 64)%nat then dig
            else Sha256.blocks (S fuel) (Sha256.block dig (firstn 64 p)) (skipn 64 p)).
    change (Sha256.blocks (S fuel) dig p)
      with (if (length p <? 64)%nat then dig
            else Sha256.blocks fuel (Sha256.block dig (firstn 64 p)) (skipn 64 p)).
    destruct (Nat.ltb_spec (length p) 64) as [Hlt|Hge]; [reflexivity|].
    apply IH. rewrite length_skipn. lia.
Qed.

End DigestMore.
